(** * NBAWeb: the projections dashboard view

    A shallow embedding of [home] (NBAWeb/NBAWeb/views.py), the one view of
    the dashboard, and the properties of the rendering context it builds.

    What is modelled, and how:
    - the file system is a finite map from paths to nodes (a regular file
      with its content, or a directory); [os.path.exists] and
      [pandas.read_csv] only look the path up;
    - the body of [home] runs in a state-and-exception monad whose state
      holds the file system and the local dictionary [context]; as in
      Python, what was written to [context] before an exception is raised is
      still there when the handler runs;
    - a [DataFrame] is a header of distinct labels and a list of rows of
      tagged cells: [str] (object columns), [int] (int64 columns) and
      [float] (float64 columns, and the NaN of an empty cell in a column of
      strings).  A float is a binary64 number, with its NaN, infinities and
      signed zero, and [DataFrame.round] is numpy's computation on it:
      multiply by the power of ten, [rint], divide.  Boolean columns, and
      integer columns outside int64, are left out;
    - the CSV parser of pandas, Django's [render] and the text Python
      writes for a float are parameters. *)

From Stdlib Require Import ZArith String DecimalString Lia Floats.
From stdpp Require Import gmap strings list fin_maps.

Local Open Scope string_scope.
Local Open Scope Z_scope.
Local Open Scope list_scope.

(** Decimal literals stand for the double nearest to them. *)
Set Warnings "-inexact-float".

(** ** Python values and exceptions *)

(** A cell of a frame, as [to_dict] and [iterrows] hand it to Python. *)
Inductive value : Type :=
| VStr (s : string)
| VInt (z : Z)
| VFloat (x : float).

(** The exceptions (instances of [Exception]) the view can see.  [KeyError]
    comes from [row[...]], [TypeError] from [sorted]; everything pandas or
    the operating system raises while reading is an [OtherError] carrying
    the text [str(e)] produces. *)
Inductive exn : Type :=
| KeyError (key : string)
| TypeError (msg : string)
| OtherError (msg : string).

(** [str(e)]: a [KeyError] prints the [repr] of its key. *)
Definition exn_str (e : exn) : string :=
  match e with
  | KeyError key => "'" +:+ key +:+ "'"
  | TypeError msg => msg
  | OtherError msg => msg
  end.

Inductive result (A : Type) : Type :=
| Ok (a : A)
| Raise (e : exn).
Arguments Ok {A} a.
Arguments Raise {A} e.

#[global] Instance result_ret : MRet result := fun A a => Ok a.
#[global] Instance result_bind : MBind result := fun A B f r =>
  match r with
  | Ok a => f a
  | Raise e => Raise e
  end.

(** *** Numbers *)

Definition is_str (v : value) : bool :=
  match v with VStr _ => true | _ => false end.

Definition is_float (v : value) : bool :=
  match v with VFloat _ => true | _ => false end.

Definition type_name (v : value) : string :=
  match v with
  | VStr _ => "str"
  | VInt _ => "int"
  | VFloat _ => "float"
  end.

(** An integer against a float, exactly, as Python compares them; [None]
    when the float is NaN. *)
Definition Zcompare_float (z : Z) (x : float) : option comparison :=
  match Prim2SF x with
  | S754_nan => None
  | S754_infinity negative => Some (if negative then Gt else Lt)
  | S754_zero _ => Some (z ?= 0)
  | S754_finite negative m e =>
      let sm := if negative then Z.neg m else Z.pos m in
      Some (if 0 <=? e then z ?= sm * 2 ^ e else z * 2 ^ (- e) ?= sm)
  end.

(** [x < y]: strings by code point (on UTF-8 bytes that is the order of the
    bytes), numbers by value (false as soon as one is NaN), and a
    [TypeError] between a string and a number. *)
Definition py_lt (x y : value) : result bool :=
  match x, y with
  | VStr s, VStr t => Ok (String.ltb s t)
  | VStr _, _ | _, VStr _ =>
      Raise (TypeError ("'<' not supported between instances of '"
                        +:+ type_name x +:+ "' and '" +:+ type_name y +:+ "'"))
  | VInt z, VInt z' => Ok (z <? z')
  | VFloat a, VFloat b => Ok (a <? b)%float
  | VInt z, VFloat b =>
      Ok (match Zcompare_float z b with Some Lt => true | _ => false end)
  | VFloat a, VInt z =>
      Ok (match Zcompare_float z a with Some Gt => true | _ => false end)
  end.

(** [x == y]: never raises; a string never equals a number, [1 == 1.0],
    [-0.0 == 0.0], and NaN equals nothing. *)
Definition py_eq (x y : value) : bool :=
  match x, y with
  | VStr s, VStr t => bool_decide (s = t)
  | VStr _, _ | _, VStr _ => false
  | VInt z, VInt z' => z =? z'
  | VFloat a, VFloat b => (a =? b)%float
  | VInt z, VFloat b =>
      match Zcompare_float z b with Some Eq => true | _ => false end
  | VFloat a, VInt z =>
      match Zcompare_float z a with Some Eq => true | _ => false end
  end.

(** C's [rint] in the default rounding mode: a double below [2^52] in
    magnitude is rounded to the nearest integer, ties to the even one, by
    adding and subtracting [2^52]; zeros keep their sign; larger doubles,
    infinities and NaN are returned as they are. *)
Definition rint (x : float) : float :=
  let big := 4503599627370496%float in
  if (abs x <? big)%float then
    if (x =? 0)%float then x
    else
      let y := (abs x + big - big)%float in
      if (x <? 0)%float then (- y)%float else y
  else x.

(** [numpy.round(x, decimals)] for [decimals >= 0]: multiply by
    [10^decimals], [rint], divide. *)
Definition np_round (decimals : nat) (x : float) : float :=
  let scale := Nat.iter decimals (fun s => (s * 10)%float) 1%float in
  (rint (x * scale) / scale)%float.

(** The double nearest to an integer, ties to even: an int64 made a
    float64. *)
Definition Z_to_float (z : Z) : float :=
  SF2Prim (binary_normalize prec emax z 0 false).

(** *** Formatting, as an f-string does it *)

Definition str_int (z : Z) : string := NilZero.string_of_int (Z.to_int z).

Section Formatting.

(** The text Python writes for a float: its shortest [repr]. *)
Variable float_str : float -> string.

Definition py_str (v : value) : string :=
  match v with
  | VStr s => s
  | VInt z => str_int z
  | VFloat x => float_str x
  end.

End Formatting.

(** ** pandas *)

Record DataFrame : Type := {
  columns : list string;
  rows : list (list value)
}.

(** [DataFrame.round(decimals)]: float columns are rounded, integer and
    object columns are left alone (the NaN of an empty cell is NaN either
    way). *)
Definition round_value (decimals : nat) (v : value) : value :=
  match v with
  | VFloat x => VFloat (np_round decimals x)
  | _ => v
  end.

Definition round (decimals : nat) (df : DataFrame) : DataFrame :=
  {| columns := columns df;
     rows := (fun r : list value => round_value decimals <$> r) <$> rows df |}.

(** A row as [iterrows] yields it: a [Series] indexed by the column names. *)
Definition Series : Type := list (string * value).

Inductive dtype : Type := int64 | float64 | object.

(** The dtype of [df.values]: [object] as soon as a column holds strings,
    otherwise [float64] as soon as one holds floats. *)
Definition values_dtype (df : DataFrame) : dtype :=
  let cells := concat (rows df) in
  if existsb is_str cells then object
  else if existsb is_float cells then float64
  else int64.

(** [iterrows] builds each row from [df.values], so in a frame without
    strings but with a float column the integers come out as floats. *)
Definition widen (t : dtype) (v : value) : value :=
  match t, v with
  | float64, VInt z => VFloat (Z_to_float z)
  | _, _ => v
  end.

Definition iterrows (df : DataFrame) : list Series :=
  (fun r : list value => zip (columns df) (widen (values_dtype df) <$> r))
    <$> rows df.

(** [row[key]] on a [Series] with distinct labels. *)
Fixpoint getitem (row : Series) (key : string) : result value :=
  match row with
  | [] => Raise (KeyError key)
  | (k, v) :: row' => if bool_decide (k = key) then Ok v else getitem row' key
  end.

(** [dict(zip(columns, row))]: a later key overwrites an earlier one. *)
Definition dict_of (kvs : list (string * value)) : gmap string value :=
  foldl (fun m kv => <[kv.1 := kv.2]> m) ∅ kvs.

(** [DataFrame.to_dict('records')]. *)
Definition to_dict_records (df : DataFrame) : list (gmap string value) :=
  (fun r : list value => dict_of (zip (columns df) r)) <$> rows df.

(** ** The file system and the state of a call *)

(** An absolute path, as its list of components. *)
Definition path : Type := list string.

Module os_path.

Definition dirname (p : path) : path := removelast p.

Definition join (p : path) (name : string) : path := p ++ [name].

Definition to_string (p : path) : string := "/" +:+ String.concat "/" p.

End os_path.

Inductive node : Type :=
| File (content : string)
| Directory.

(** What a rendering context holds under its keys. *)
Inductive pyobj : Type :=
| PyStr (s : string)
| PyInt (z : Z)
| PyRecords (records : list (gmap string value))
| PyList (items : list string).

(** The file system, and the local dictionary [context] of the call. *)
Record state : Type := {
  files : gmap path node;
  context : gmap string pyobj
}.

(** State and exceptions; the state survives a raised exception. *)
Definition M (A : Type) : Type := state -> result A * state.

#[global] Instance M_ret : MRet M := fun A a s => (Ok a, s).
#[global] Instance M_bind : MBind M := fun A B f m s =>
  match m s with
  | (Ok a, s') => f a s'
  | (Raise e, s') => (Raise e, s')
  end.

(** [try: body  except Exception as e: handler e]. *)
Definition try_except {A} (body : M A) (handler : exn -> M A) : M A :=
  fun s =>
    match body s with
    | (Ok a, s') => (Ok a, s')
    | (Raise e, s') => handler e s'
    end.

(** A computation that touches no state. *)
Definition lift {A} (r : result A) : M A := fun s => (r, s).

(** [context = d]. *)
Definition assign_context (d : gmap string pyobj) : M unit :=
  fun s => (Ok tt, {| files := files s; context := d |}).

(** [context[key] = v]. *)
Definition setitem (key : string) (v : pyobj) : M unit :=
  fun s => (Ok tt, {| files := files s; context := <[key := v]> (context s) |}).

Definition get_context : M (gmap string pyobj) :=
  fun s => (Ok (context s), s).

(** [os.path.exists(p)]: true for a file and for a directory. *)
Definition exists_ (p : path) : M bool :=
  fun s => (Ok (bool_decide (is_Some (files s !! p))), s).

(** ** The matchup loop *)

(** [sorted([a, b])] as a pair: the list sort looks at a two-element list
    with the single comparison [b < a]. *)
Definition sorted2 (a b : value) : result (value * value) :=
  lt ← py_lt b a; mret (if lt : bool then (b, a) else (a, b)).

Definition tuple_eq (p q : value * value) : bool :=
  py_eq p.1 q.1 && py_eq p.2 q.2.

(** [matchup in seen_matchups]: membership of a Python set is by [==] (on
    equal hashes, which equal tuples have). *)
Definition set_in (matchup : value * value) (seen : list (value * value)) : bool :=
  existsb (tuple_eq matchup) seen.

(** The two locals the loop updates. *)
Record loop_vars : Type := {
  seen_matchups : list (value * value);
  unique_matchups : list string
}.

Section Loop.

(** The text Python writes for a float. *)
Variable float_str : float -> string.

Definition loop_body (vars : loop_vars) (row : Series) : result loop_vars :=
  a ← getitem row "team_abbreviation";
  b ← getitem row "opponent";
  matchup ← sorted2 a b;
  if set_in matchup (seen_matchups vars) then mret vars
  else
    a' ← getitem row "team_abbreviation";
    b' ← getitem row "opponent";
    mret {| seen_matchups := matchup :: seen_matchups vars;
            unique_matchups :=
              unique_matchups vars
              ++ [py_str float_str a' +:+ " vs " +:+ py_str float_str b'] |}.

End Loop.

(** [for x in l: body], stopping at the first exception. *)
Fixpoint for_each {A S} (body : S -> A -> result S) (l : list A) (s : S) : result S :=
  match l with
  | [] => Ok s
  | x :: l' => s' ← body s x; for_each body l' s'
  end.

(** ** The view *)

Section Home.

(** Django's request and response, and [render]. *)
Variables Request Response : Type.
Variable render : Request -> string -> gmap string pyobj -> Response.

(** What [pandas.read_csv] makes of the content of a regular file. *)
Variable parse_csv : string -> result DataFrame.

(** The text Python writes for a float. *)
Variable float_str : float -> string.

(** [os.path.abspath(__file__)] of views.py. *)
Variable module_file : path.

(** [pd.read_csv(p)]. *)
Definition read_csv (p : path) : M DataFrame :=
  fun s =>
    match files s !! p with
    | Some (File content) => (parse_csv content, s)
    | Some Directory =>
        (Raise (OtherError ("[Errno 21] Is a directory: '"
                            +:+ os_path.to_string p +:+ "'")), s)
    | None =>
        (Raise (OtherError ("[Errno 2] No such file or directory: '"
                            +:+ os_path.to_string p +:+ "'")), s)
    end.

Definition csv_path : path :=
  let base_dir := os_path.dirname (os_path.dirname module_file) in
  let data_folder := os_path.join base_dir "data_feed" in
  os_path.join data_folder "projections.csv".

Definition loop_start : loop_vars :=
  {| seen_matchups := []; unique_matchups := [] |}.

(** The body of the [try]. *)
Definition load : M unit :=
  found ← exists_ csv_path;
  if found : bool then
    df ← read_csv csv_path;
    let df := round 1 df in
    vars ← lift (for_each (loop_body float_str) (iterrows df) loop_start);
    setitem "projections" (PyRecords (to_dict_records df));;
    setitem "games" (PyList (unique_matchups vars))
  else
    setitem "error" (PyStr "File not found. Please run the R script.").

Definition home (request : Request) : M Response :=
  assign_context {[ "title" := PyStr "NBA AI Projections"; "year" := PyInt 2026 ]};;
  try_except load
    (fun e => setitem "error" (PyStr ("Error loading data: " +:+ exn_str e)));;
  ctx ← get_context;
  mret (render request "index.html" ctx).

(** A call of the view on a file system; [context] is unbound before. *)
Definition call (request : Request) (fs : gmap path node) : result Response * state :=
  home request {| files := fs; context := ∅ |}.

(** The context the call hands to [render]. *)
Definition home_context (request : Request) (fs : gmap path node) : gmap string pyobj :=
  context (call request fs).2.

End Home.

(** * What the claims speak of *)

(** The cell of a parsed row under a column name. *)
Definition field (df : DataFrame) (r : list value) (key : string) : result value :=
  getitem (zip (columns df) r) key.

(** A row whose two team fields are there and can be ordered: both strings,
    or both numbers. *)
Definition orderable (df : DataFrame) (r : list value) : bool :=
  match field df r "team_abbreviation", field df r "opponent" with
  | Ok a, Ok b => bool_decide (is_str a = is_str b)
  | _, _ => false
  end.

(** The team codes of a row, when both are strings. *)
Definition codes (df : DataFrame) (r : list value) : option (string * string) :=
  match field df r "team_abbreviation", field df r "opponent" with
  | Ok (VStr a), Ok (VStr b) => Some (a, b)
  | _, _ => None
  end.

(** Every row of the frame has a string team and a string opponent. *)
Definition string_codes (df : DataFrame) : bool :=
  forallb (fun r => bool_decide (is_Some (codes df r))) (rows df).

(** (team_abbreviation, opponent) of the rows, in file order. *)
Definition team_pairs (df : DataFrame) : list (string * string) :=
  omap (codes df) (rows df).

(** The unordered pair of the two codes of a row. *)
Definition unordered (p : string * string) : gset string := {[ p.1; p.2 ]}.

(** The rows whose unordered pair no earlier row has. *)
Definition first_occurrences (l : list (string * string)) : list (string * string) :=
  omap id (imap (fun i p =>
                   if bool_decide (unordered p ∈ unordered <$> take i l)
                   then None else Some p) l).

(** The entry of the dropdown for a row. *)
Definition display (p : string * string) : string := p.1 +:+ " vs " +:+ p.2.


(** Every row has one cell for each column. *)
Definition rectangular (df : DataFrame) : Prop :=
  Forall (fun r : list value => length r = length (columns df)) (rows df).

(** The rows of [l] whose unordered pair is neither in [earlier] nor in an
    earlier row of [l]. *)
Definition first_from (earlier l : list (string * string)) : list (string * string) :=
  omap id (imap (fun i p =>
                   if bool_decide (unordered p ∈ unordered <$> (earlier ++ take i l))
                   then None else Some p) l).

(** The tuple the loop keeps in [seen_matchups] for two string codes. *)
Definition key (p : string * string) : value * value :=
  if String.ltb p.2 p.1 then (VStr p.2, VStr p.1) else (VStr p.1, VStr p.2).

(** ** How a call can end *)

(** The dictionary [home] starts from. *)
Definition titled : gmap string pyobj :=
  {[ "title" := PyStr "NBA AI Projections"; "year" := PyInt 2026 ]}.

Definition not_found : pyobj := PyStr "File not found. Please run the R script.".

Definition loading_failed (e : exn) : pyobj :=
  PyStr ("Error loading data: " +:+ exn_str e).

Section Outcome.

Variable parse_csv : string -> result DataFrame.
Variable float_str : float -> string.
Variable module_file : path.

Local Abbreviation csv := (csv_path module_file).
Local Abbreviation loop_body := (loop_body float_str).

(** The [try] starts on the dictionary holding the title and the year. *)
Definition entry (fs : gmap path node) : state :=
  {| files := fs; context := titled |}.

(** The file is there, and reading, parsing or transforming it raises [e]. *)
Inductive raises (fs : gmap path node) : exn -> Prop :=
| Reading :
    fs !! csv = Some Directory ->
    raises fs (OtherError ("[Errno 21] Is a directory: '"
                           +:+ os_path.to_string csv +:+ "'"))
| Parsing content e :
    fs !! csv = Some (File content) ->
    parse_csv content = Raise e ->
    raises fs e
| Transforming content df e :
    fs !! csv = Some (File content) ->
    parse_csv content = Ok df ->
    for_each loop_body (iterrows (round 1 df)) loop_start = Raise e ->
    raises fs e.

(** The three ways the body of the [try] can end. *)
Inductive outcome (s : state) : result unit * state -> Prop :=
| Missing :
    files s !! csv = None ->
    outcome s (Ok tt, {| files := files s;
                         context := <["error" := not_found]> (context s) |})
| Loaded content df vars :
    files s !! csv = Some (File content) ->
    parse_csv content = Ok df ->
    for_each loop_body (iterrows (round 1 df)) loop_start = Ok vars ->
    outcome s (Ok tt,
               {| files := files s;
                  context :=
                    <["games" := PyList (unique_matchups vars)]>
                      (<["projections" := PyRecords (to_dict_records (round 1 df))]>
                         (context s)) |})
| Failed e :
    raises (files s) e ->
    outcome s (Raise e, s).

(** The context a call hands to [render], by the way the [try] ended. *)
Inductive rendered (fs : gmap path node) : gmap string pyobj -> Prop :=
| RMissing :
    fs !! csv = None ->
    rendered fs (<["error" := not_found]> titled)
| RLoaded content df vars :
    fs !! csv = Some (File content) ->
    parse_csv content = Ok df ->
    for_each loop_body (iterrows (round 1 df)) loop_start = Ok vars ->
    rendered fs (<["games" := PyList (unique_matchups vars)]>
                   (<["projections" := PyRecords (to_dict_records (round 1 df))]>
                      titled))
| RFailed e :
    raises fs e ->
    rendered fs (<["error" := loading_failed e]> titled).

End Outcome.

(** ** Frames and files to try the view on *)

(** Scenario A: (LAL, BOS, 24.333) and (BOS, LAL, 10.667), the number under
    a column named [col]. *)
Definition scenario_A (col : string) : DataFrame :=
  {| columns := ["team_abbreviation"; "opponent"; col];
     rows := [ [VStr "LAL"; VStr "BOS"; VFloat 24.333];
               [VStr "BOS"; VStr "LAL"; VFloat 10.667] ] |}.

(** A file with a header and no data row. *)
Definition header_only : DataFrame :=
  {| columns := ["team_abbreviation"; "opponent"; "pts"]; rows := [] |}.

(** A file without an [opponent] column. *)
Definition no_opponent : DataFrame :=
  {| columns := ["team_abbreviation"; "pts"];
     rows := [ [VStr "LAL"; VFloat 24.333] ] |}.

(** A file that names the opponent by a number. *)
Definition numbered_opponent : DataFrame :=
  {| columns := ["team_abbreviation"; "opponent"];
     rows := [ [VStr "LAL"; VInt 7] ] |}.

(** A file that names the team by a number and the opponent by its code. *)
Definition numbered_team : DataFrame :=
  {| columns := ["team_abbreviation"; "opponent"];
     rows := [ [VInt 7; VStr "BOS"] ] |}.


(** A file without a [team_abbreviation] column. *)
Definition no_team : DataFrame :=
  {| columns := ["opponent"; "pts"];
     rows := [ [VStr "BOS"; VFloat 24.333] ] |}.

(** The file of scenario A when it had its first row only. *)
Definition scenario_A_start : DataFrame :=
  {| columns := ["team_abbreviation"; "opponent"; "pts"];
     rows := [ [VStr "LAL"; VStr "BOS"; VFloat 24.333] ] |}.

(** Where views.py is installed, for the examples. *)
Definition views_py : path := ["srv"; "NBAWeb"; "NBAWeb"; "views.py"].

(** A file system holding nothing but the CSV file. *)
Definition disk (content : string) : gmap path node :=
  {[ csv_path views_py := File content ]}.

(** A parser that reads [df] out of every file. *)
Definition parses_to (df : DataFrame) (content : string) : result DataFrame :=
  Ok df.

(** A [render] that answers with the template name and the context. *)
Definition show (request : bool) (template : string) (ctx : gmap string pyobj) :
    string * gmap string pyobj :=
  (template, ctx).

(** The text of a few floats (NaN, the zeros, 1, 2 and 7), for the
    examples, whose frames have no float for a team or an opponent. *)
Definition float_str_small (x : float) : string :=
  if is_nan x then "nan"
  else if (x =? 0)%float then (if get_sign x then "-0.0" else "0.0")
  else if (x =? 1)%float then "1.0"
  else if (x =? 2)%float then "2.0"
  else if (x =? 7)%float then "7.0"
  else "".

(** The context of a call on a file system, with the parser reading [df]. *)
Definition context_on (df : DataFrame) (fs : gmap path node) : gmap string pyobj :=
  home_context bool _ show (parses_to df) float_str_small views_py true fs.

Definition csv_A : string := "team_abbreviation,opponent,pts
LAL,BOS,24.333
BOS,LAL,10.667
".

Definition csv_header_only : string := "team_abbreviation,opponent,pts
".

Definition csv_no_opponent : string := "team_abbreviation,pts
LAL,24.333
".

Definition csv_numbered_opponent : string := "team_abbreviation,opponent
LAL,7
".

Definition csv_numbered_team : string := "team_abbreviation,opponent
7,BOS
".

Definition csv_no_team : string := "opponent,pts
BOS,24.333
".


Definition csv_A_start : string := "team_abbreviation,opponent,pts
LAL,BOS,24.333
".

(** A parser that knows the file of scenario A at its two lengths. *)
Definition parses_A (content : string) : result DataFrame :=
  if bool_decide (content = csv_A_start) then Ok scenario_A_start
  else Ok (scenario_A "pts").

(** A file system with a directory where the CSV file should be. *)
Definition disk_with_directory : gmap path node :=
  {[ csv_path views_py := Directory ]}.

(** * Properties *)

Section Claims.

Variables Request Response : Type.
Variable render : Request -> string -> gmap string pyobj -> Response.
Variable parse_csv : string -> result DataFrame.
Variable float_str : float -> string.
Variable module_file : path.

Local Abbreviation csv := (csv_path module_file).
Local Abbreviation loop_body := (loop_body float_str).
Local Abbreviation load' := (load parse_csv float_str module_file).
Local Abbreviation call' :=
  (call Request Response render parse_csv float_str module_file).
Local Abbreviation context_of :=
  (home_context Request Response render parse_csv float_str module_file).
Local Abbreviation raises := (raises parse_csv float_str module_file).
Local Abbreviation outcome := (outcome parse_csv float_str module_file).
Local Abbreviation rendered := (rendered parse_csv float_str module_file).

(** ** Rows, as the loop sees them *)

Lemma getitem_zip_fmap (f : value -> value) (cols : list string) (r : list value)
    (key : string) :
  getitem (zip cols (f <$> r)) key
  = match getitem (zip cols r) key with
    | Ok v => Ok (f v)
    | Raise e => Raise e
    end.
Proof.
  revert r. induction cols as [|c cols IH]; intros [|v r]; simpl; try reflexivity.
  case_bool_decide; [reflexivity | apply IH].
Qed.

Lemma is_str_round_value (decimals : nat) (v : value) :
  is_str (round_value decimals v) = is_str v.
Proof. by destruct v. Qed.

Lemma is_str_widen (t : dtype) (v : value) : is_str (widen t v) = is_str v.
Proof. by destruct t, v. Qed.

(** The row [iterrows] yields for the parsed row [r], after [round(1)]. *)
Lemma iterrows_round (df : DataFrame) :
  iterrows (round 1 df)
  = (fun r : list value =>
       zip (columns df)
         ((fun v => widen (values_dtype (round 1 df)) (round_value 1 v)) <$> r))
    <$> rows df.
Proof.
  unfold iterrows. simpl. rewrite <- list_fmap_compose.
  apply list_fmap_ext. intros _ r _. simpl. by rewrite <- list_fmap_compose.
Qed.

Lemma py_lt_orderable (a b : value) :
  is_str a = is_str b -> exists lt : bool, py_lt b a = Ok lt.
Proof. destruct a, b; simpl; intros H; try discriminate; eauto. Qed.

(** The body of the loop raises nothing on a row it can order. *)
Lemma loop_body_orderable (vars : loop_vars) (row : Series) (a b : value) :
  getitem row "team_abbreviation" = Ok a ->
  getitem row "opponent" = Ok b ->
  is_str a = is_str b ->
  exists vars', loop_body vars row = Ok vars'.
Proof.
  intros Ha Hb Hab. unfold loop_body, sorted2.
  rewrite Ha, Hb. simpl.
  destruct (py_lt_orderable a b Hab) as [lt ->]. simpl.
  destruct (set_in _ _); simpl; eauto.
Qed.

Lemma for_each_orderable (df : DataFrame) (vars : loop_vars) :
  forallb (orderable df) (rows df) = true ->
  exists vars', for_each loop_body (iterrows (round 1 df)) vars = Ok vars'.
Proof.
  rewrite iterrows_round.
  generalize (values_dtype (round 1 df)) as t. intros t.
  revert vars. induction (rows df) as [|r l IH]; intros vars Hall; simpl.
  - eauto.
  - simpl in Hall. apply andb_prop in Hall as [Hr Hl].
    unfold orderable, field in Hr.
    destruct (getitem (zip (columns df) r) "team_abbreviation") as [a|] eqn:Ha;
      [|discriminate].
    destruct (getitem (zip (columns df) r) "opponent") as [b|] eqn:Hb;
      [|discriminate].
    apply bool_decide_eq_true in Hr.
    edestruct (loop_body_orderable vars) as [vars1 ->].
    + rewrite getitem_zip_fmap, Ha. reflexivity.
    + rewrite getitem_zip_fmap, Hb. reflexivity.
    + by rewrite !is_str_widen, !is_str_round_value.
    + simpl. by apply IH.
Qed.

(** ** Rounding *)

Lemma np_round_1 (x : float) : np_round 1 x = (rint (x * 10) / 10)%float.
Proof. reflexivity. Qed.


(** What [round(1)] makes of some doubles: the numbers of scenario A, two
    ties, a negative number that rounds to zero, a whole number, a number
    too large to be multiplied by ten, infinity and NaN. *)
Lemma np_round_values :
  np_round 1 24.333 = 24.3%float
  /\ np_round 1 10.667 = 10.7%float
  /\ np_round 1 0.25 = 0.2%float
  /\ np_round 1 0.45 = 0.4%float
  /\ np_round 1 (-0.04) = (-0.0)%float
  /\ np_round 1 5 = 5%float
  /\ np_round 1 1e308 = infinity
  /\ np_round 1 infinity = infinity
  /\ np_round 1 nan = nan.
Proof. repeat split; vm_compute; reflexivity. Qed.

(** ** Records *)


(** ** Matchups of string codes *)

Lemma elem_of_pair (x a b : string) :
  x ∈ ({[a; b]} : gset string) <-> x = a \/ x = b.
Proof. by rewrite elem_of_union, !elem_of_singleton. Qed.

Lemma unordered_eq (p q : string * string) :
  unordered p = unordered q
  <-> (p.1 = q.1 /\ p.2 = q.2) \/ (p.1 = q.2 /\ p.2 = q.1).
Proof.
  destruct p as [a b], q as [c d]; unfold unordered; simpl. split.
  - intros Heq.
    assert (a = c \/ a = d) as Ha by (apply elem_of_pair; rewrite <- Heq; apply elem_of_pair; auto).
    assert (b = c \/ b = d) as Hb by (apply elem_of_pair; rewrite <- Heq; apply elem_of_pair; auto).
    assert (c = a \/ c = b) as Hc by (apply elem_of_pair; rewrite Heq; apply elem_of_pair; auto).
    assert (d = a \/ d = b) as Hd by (apply elem_of_pair; rewrite Heq; apply elem_of_pair; auto).
    intuition congruence.
  - intros [[-> ->] | [-> ->]]; [reflexivity | apply (comm_L (∪))].
Qed.

Lemma ltb_flip (a b : string) :
  a <> b -> String.ltb a b = negb (String.ltb b a).
Proof.
  intros Hne. unfold String.ltb. rewrite (String.compare_antisym b a).
  destruct (String.compare a b) eqn:Hcmp; simpl; try reflexivity.
  by apply String.compare_eq_iff in Hcmp.
Qed.

Lemma key_swap (a b : string) : key (a, b) = key (b, a).
Proof.
  unfold key; simpl. destruct (decide (a = b)) as [->|Hne]; [reflexivity|].
  rewrite (ltb_flip a b Hne). by destruct (String.ltb b a).
Qed.

Lemma unordered_key (p : string * string) :
  exists a b, key p = (VStr a, VStr b) /\ unordered p = unordered (a, b).
Proof.
  destruct p as [a b]. unfold key; simpl. destruct (String.ltb b a).
  - exists b, a. split; [reflexivity | apply unordered_eq; simpl; auto].
  - exists a, b. split; reflexivity.
Qed.

(** Two string rows have equal tuples exactly when they have the same
    unordered pair. *)
Lemma tuple_eq_key (p q : string * string) :
  tuple_eq (key p) (key q) = true <-> unordered p = unordered q.
Proof.
  split.
  - destruct (unordered_key p) as (a & b & -> & ->).
    destruct (unordered_key q) as (c & d & -> & ->).
    unfold tuple_eq; simpl. intros [H1 H2]%andb_prop.
    apply bool_decide_eq_true in H1, H2. by subst.
  - intros [[H1 H2] | [H1 H2]]%unordered_eq;
      destruct p as [a b], q as [c d]; simpl in *; subst.
    + destruct (unordered_key (c, d)) as (a & b & -> & _).
      unfold tuple_eq; simpl. by rewrite !bool_decide_eq_true_2.
    + rewrite (key_swap d c).
      destruct (unordered_key (c, d)) as (a & b & -> & _).
      unfold tuple_eq; simpl. by rewrite !bool_decide_eq_true_2.
Qed.

Lemma set_in_cons (m k : value * value) (seen : list (value * value)) :
  set_in m (k :: seen) = tuple_eq m k || set_in m seen.
Proof. reflexivity. Qed.

Lemma first_from_cons (earlier : list (string * string)) (p : string * string)
    (l : list (string * string)) :
  first_from earlier (p :: l)
  = (if bool_decide (unordered p ∈ unordered <$> earlier) then [] else [p])
    ++ first_from (earlier ++ [p]) l.
Proof.
  unfold first_from. rewrite imap_cons. simpl. rewrite app_nil_r.
  rewrite (imap_ext _ (fun i q =>
             if bool_decide (unordered q ∈ unordered <$> ((earlier ++ [p]) ++ take i l))
             then None else Some q)).
  - by case_bool_decide.
  - intros i q _. simpl. by rewrite <- app_assoc.
Qed.

(** What [first_occurrences] keeps: the rows none of whose predecessors
    has the same unordered pair. *)
Lemma elem_of_first_occurrences (l : list (string * string)) (p : string * string) :
  p ∈ first_occurrences l
  <-> exists i, l !! i = Some p
                /\ forall j q, (j < i)%nat -> l !! j = Some q ->
                               unordered q <> unordered p.
Proof.
  unfold first_occurrences. rewrite list_elem_of_omap. split.
  - intros (o & Ho & Hp). simpl in Hp. subst o.
    apply elem_of_lookup_imap in Ho as (i & q & Hq & Hi).
    case_bool_decide as Hseen; [discriminate|]. simplify_eq.
    exists i. split; [exact Hi|]. intros j q' Hj Hq' Heq. apply Hseen.
    apply list_elem_of_fmap. exists q'. split; [done|].
    apply elem_of_take. eauto.
  - intros (i & Hi & Hfirst). exists (Some p). split; [|reflexivity].
    apply elem_of_lookup_imap. exists i, p. split; [|exact Hi].
    rewrite bool_decide_eq_false_2; [reflexivity|].
    intros (q & Heq & (j & Hq & Hj)%elem_of_take)%list_elem_of_fmap.
    by apply (Hfirst j q).
Qed.

Lemma first_occurrences_first_from (l : list (string * string)) :
  first_occurrences l = first_from [] l.
Proof. reflexivity. Qed.

(** One turn of the loop on a row with string codes. *)
Lemma loop_body_codes (vars : loop_vars) (row : Series) (p : string * string) :
  getitem row "team_abbreviation" = Ok (VStr p.1) ->
  getitem row "opponent" = Ok (VStr p.2) ->
  loop_body vars row
  = Ok (if set_in (key p) (seen_matchups vars) then vars
        else {| seen_matchups := key p :: seen_matchups vars;
                unique_matchups := unique_matchups vars ++ [display p] |}).
Proof.
  intros Ha Hb. unfold loop_body, sorted2. rewrite Ha, Hb. simpl.
  fold (key p). by destruct (set_in _ _).
Qed.

(** The loop, started with [seen_matchups] holding the tuples of the rows
    in [earlier], appends the entries of the first occurrences. *)
Lemma for_each_codes (rs : list Series) (pairs : list (string * string)) :
  Forall2 (fun row p =>
             getitem row "team_abbreviation" = Ok (VStr p.1)
             /\ getitem row "opponent" = Ok (VStr p.2)) rs pairs ->
  forall (earlier : list (string * string)) (vars : loop_vars),
    (forall q, set_in (key q) (seen_matchups vars) = true
               <-> unordered q ∈ unordered <$> earlier) ->
    exists vars',
      for_each loop_body rs vars = Ok vars'
      /\ unique_matchups vars'
         = unique_matchups vars ++ (display <$> first_from earlier pairs).
Proof.
  induction 1 as [|row p rs pairs [Ha Hb] _ IH]; intros earlier vars Hseen.
  - exists vars. split; [reflexivity | by rewrite app_nil_r].
  - simpl. rewrite (loop_body_codes vars row p Ha Hb). simpl.
    rewrite first_from_cons.
    destruct (set_in (key p) (seen_matchups vars)) eqn:Hin.
    + rewrite bool_decide_eq_true_2 by (by apply Hseen).
      apply IH. intros q. rewrite Hseen, fmap_app, elem_of_app. simpl.
      rewrite list_elem_of_singleton. split; [auto|].
      intros [Hq | ->]; [done | by apply Hseen].
    + rewrite bool_decide_eq_false_2
        by (rewrite <- Hseen, Hin; discriminate).
      destruct (IH (earlier ++ [p])
                  {| seen_matchups := key p :: seen_matchups vars;
                     unique_matchups := unique_matchups vars ++ [display p] |})
        as (vars' & Hrun & Hunique).
      * intros q. cbn [seen_matchups].
        rewrite set_in_cons, orb_true_iff, tuple_eq_key, Hseen.
        rewrite fmap_app, elem_of_app. simpl. rewrite list_elem_of_singleton.
        tauto.
      * exists vars'. split; [exact Hrun|].
        rewrite Hunique. simpl. by rewrite <- app_assoc.
Qed.

(** [first_from] keeps one row for each unordered pair that is new. *)
Lemma elem_of_first_from (l earlier : list (string * string)) (u : gset string) :
  u ∈ unordered <$> first_from earlier l
  <-> u ∈ unordered <$> l /\ u ∉ unordered <$> earlier.
Proof.
  revert earlier. induction l as [|p l IH]; intros earlier.
  - unfold first_from; simpl. rewrite elem_of_nil. tauto.
  - rewrite first_from_cons, fmap_app, elem_of_app, IH, fmap_cons, elem_of_cons.
    rewrite fmap_app, elem_of_app. simpl. rewrite list_elem_of_singleton.
    case_bool_decide as Hp; simpl; rewrite ?elem_of_nil, ?list_elem_of_singleton.
    + split; [tauto|]. intros [[-> | Hu] Hnot]; [done|].
      right. split; [done|]. by intros [? | ->].
    + destruct (decide (u = unordered p)) as [-> | Hne]; tauto.
Qed.

Lemma NoDup_first_from (l earlier : list (string * string)) :
  NoDup (unordered <$> first_from earlier l).
Proof.
  revert earlier. induction l as [|p l IH]; intros earlier.
  - unfold first_from; simpl. constructor.
  - rewrite first_from_cons, fmap_app. case_bool_decide as Hp; simpl.
    + apply IH.
    + apply NoDup_cons. split; [|apply IH].
      rewrite elem_of_first_from, fmap_app, elem_of_app. simpl.
      rewrite list_elem_of_singleton. tauto.
Qed.

Lemma first_from_sublist (l earlier : list (string * string)) :
  first_from earlier l `sublist_of` l.
Proof.
  revert earlier. induction l as [|p l IH]; intros earlier.
  - unfold first_from; simpl. constructor.
  - rewrite first_from_cons. case_bool_decide; simpl.
    + by apply sublist_cons.
    + by apply sublist_skip.
Qed.

(** As many first occurrences as there are unordered pairs. *)
Lemma length_first_occurrences (l : list (string * string)) :
  length (first_occurrences l)
  = size (list_to_set (unordered <$> l) : gset (gset string)).
Proof.
  rewrite first_occurrences_first_from, <- (length_fmap unordered).
  rewrite <- (size_list_to_set (C := gset (gset string)))
    by apply NoDup_first_from.
  f_equal. apply set_eq. intros u.
  rewrite !elem_of_list_to_set, elem_of_first_from.
  simpl. rewrite elem_of_nil. tauto.
Qed.

(** The rows of a frame with string codes, as the loop meets them. *)
Lemma iterrows_codes (df : DataFrame) :
  string_codes df = true ->
  Forall2 (fun row p =>
             getitem row "team_abbreviation" = Ok (VStr p.1)
             /\ getitem row "opponent" = Ok (VStr p.2))
    (iterrows (round 1 df)) (team_pairs df).
Proof.
  rewrite iterrows_round. unfold string_codes, team_pairs.
  generalize (values_dtype (round 1 df)) as t. intros t.
  induction (rows df) as [|r l IH]; simpl; intros Hall.
  - constructor.
  - apply andb_prop in Hall as [Hr Hl].
    apply bool_decide_eq_true in Hr as [[a b] Hr]. rewrite Hr. simpl.
    constructor; [|by apply IH].
    unfold codes, field in Hr. rewrite !getitem_zip_fmap.
    destruct (getitem (zip (columns df) r) "team_abbreviation") as [[a'| |]|];
      try discriminate.
    destruct (getitem (zip (columns df) r) "opponent") as [[b'| |]|];
      try discriminate.
    simplify_eq. by destruct t.
Qed.

(** With string codes, [team_pairs] has the pair of every row. *)
Lemma team_pairs_all_rows (df : DataFrame) :
  string_codes df = true ->
  Forall2 (fun r p => codes df r = Some p) (rows df) (team_pairs df).
Proof.
  unfold string_codes, team_pairs.
  induction (rows df) as [|r l IH]; simpl; intros Hall; [constructor|].
  apply andb_prop in Hall as [Hr Hl].
  apply bool_decide_eq_true in Hr as [p Hr]. rewrite Hr. simpl.
  constructor; [exact Hr | by apply IH].
Qed.

(** X15.  The file the view reads is [data_feed/projections.csv] in the
    directory that holds the package directory of views.py. *)
Lemma csv_path_beside_package (base : path) (package file : string) :
  csv_path (base ++ [package; file]) = base ++ ["data_feed"; "projections.csv"].
Proof.
  unfold csv_path, os_path.join, os_path.dirname.
  replace (base ++ [package; file]) with ((base ++ [package]) ++ [file])
    by (by rewrite <- app_assoc).
  rewrite !removelast_last. by rewrite <- app_assoc.
Qed.

Lemma string_codes_orderable (df : DataFrame) :
  string_codes df = true -> forallb (orderable df) (rows df) = true.
Proof.
  unfold string_codes. induction (rows df) as [|r l IH]; simpl; [done|].
  intros [Hr Hl]%andb_prop. rewrite IH by done.
  apply bool_decide_eq_true in Hr as [[a b] Hr].
  unfold codes, orderable in *.
  destruct (field df r "team_abbreviation") as [[a'| |]|]; try discriminate.
  destruct (field df r "opponent") as [[b'| |]|]; try discriminate.
  reflexivity.
Qed.

(** The loop on a frame with string codes. *)
Lemma for_each_string_codes (df : DataFrame) :
  string_codes df = true ->
  exists vars,
    for_each loop_body (iterrows (round 1 df)) loop_start = Ok vars
    /\ unique_matchups vars = display <$> first_occurrences (team_pairs df).
Proof.
  intros Hcodes.
  destruct (for_each_codes _ _ (iterrows_codes df Hcodes) [] loop_start)
    as (vars & Hrun & Hunique).
  - intros q. simpl. rewrite elem_of_nil. split; [discriminate | tauto].
  - exists vars. split; [exact Hrun | exact Hunique].
Qed.

(** ** Rows the loop cannot process *)

Lemma getitem_missing (cols : list string) (r : list value) (key : string) :
  key ∉ cols -> getitem (zip cols r) key = Raise (KeyError key).
Proof.
  revert r. induction cols as [|c cols IH]; intros [|v r] Hkey; simpl;
    try reflexivity.
  apply not_elem_of_cons in Hkey as [Hne Hkey].
  rewrite bool_decide_eq_false_2 by done. by apply IH.
Qed.

Lemma getitem_present (cols : list string) (r : list value) (key : string) :
  key ∈ cols -> length r = length cols ->
  exists v, getitem (zip cols r) key = Ok v.
Proof.
  revert r. induction cols as [|c cols IH]; intros [|v r] Hkey Hlen;
    try discriminate; [by apply elem_of_nil in Hkey|].
  simpl. case_bool_decide as Hc; [by eexists|].
  apply elem_of_cons in Hkey as [-> | Hkey]; [done|].
  apply IH; [done | by injection Hlen].
Qed.

(** A turn of the loop that raises nothing was on a row it can order. *)
Lemma loop_body_Ok_inv (vars vars' : loop_vars) (row : Series) :
  loop_body vars row = Ok vars' ->
  exists a b,
    getitem row "team_abbreviation" = Ok a
    /\ getitem row "opponent" = Ok b
    /\ is_str a = is_str b.
Proof.
  unfold loop_body, sorted2.
  destruct (getitem row "team_abbreviation") as [a|]; [|discriminate].
  destruct (getitem row "opponent") as [b|]; [|discriminate].
  simpl. intros Hrun. exists a, b. repeat split.
  by destruct a, b.
Qed.

Lemma for_each_Ok_inv (df : DataFrame) (vars vars' : loop_vars) :
  for_each loop_body (iterrows (round 1 df)) vars = Ok vars' ->
  forallb (orderable df) (rows df) = true.
Proof.
  rewrite iterrows_round.
  generalize (values_dtype (round 1 df)) as t. intros t.
  revert vars. induction (rows df) as [|r l IH]; intros vars; simpl; [done|].
  destruct (loop_body vars _) as [vars1|] eqn:Hbody; [|discriminate].
  simpl. intros Hrest. rewrite (IH _ Hrest), andb_true_r.
  apply loop_body_Ok_inv in Hbody as (a & b & Ha & Hb & Hab).
  rewrite getitem_zip_fmap in Ha, Hb. unfold orderable, field.
  destruct (getitem (zip (columns df) r) "team_abbreviation") as [a0|];
    [|discriminate].
  destruct (getitem (zip (columns df) r) "opponent") as [b0|]; [|discriminate].
  simplify_eq. rewrite !is_str_widen, !is_str_round_value in Hab.
  by apply bool_decide_eq_true.
Qed.

(** The loop stops at a first row without a team, or with a team and
    without an opponent, on the [KeyError] of that field. *)
Lemma for_each_first_row_missing (df : DataFrame) (r : list value)
    (l : list (list value)) (key : string) :
  rows df = r :: l ->
  key = "team_abbreviation"
  \/ (key = "opponent" /\ exists a, field df r "team_abbreviation" = Ok a) ->
  field df r key = Raise (KeyError key) ->
  for_each loop_body (iterrows (round 1 df)) loop_start = Raise (KeyError key).
Proof.
  intros Hrows Hkey Hmissing. rewrite iterrows_round, Hrows. simpl.
  unfold loop_body, field in *. rewrite !getitem_zip_fmap.
  destruct Hkey as [-> | [-> [a Ha]]].
  - by rewrite Hmissing.
  - by rewrite Ha, Hmissing.
Qed.

Lemma getitem_elem_of (cols : list string) (r : list value) (key : string)
    (v : value) :
  getitem (zip cols r) key = Ok v -> v ∈ r.
Proof.
  revert r. induction cols as [|c cols IH]; intros [|v' r]; simpl;
    try discriminate.
  case_bool_decide.
  - intros [= ->]. apply elem_of_cons. by left.
  - intros Hget. apply elem_of_cons. right. by apply IH.
Qed.

(** A frame with a string cell is handed out by [iterrows] cell for cell. *)
Lemma values_dtype_object (df : DataFrame) (r : list value) (s : string) :
  r ∈ rows df -> VStr s ∈ r -> values_dtype (round 1 df) = object.
Proof.
  intros Hr Hs. unfold values_dtype.
  assert (existsb is_str (concat (rows (round 1 df))) = true) as ->;
    [|reflexivity].
  apply existsb_exists. exists (VStr s). split; [|reflexivity].
  apply in_concat. exists (round_value 1 <$> r).
  split; apply list_elem_of_In.
  - simpl. by apply (list_elem_of_fmap_2 (fun r : list value => round_value 1 <$> r)).
  - by apply (list_elem_of_fmap_2 (round_value 1)) in Hs.
Qed.

(** ** More on first occurrences, records and rounding *)

Lemma first_from_app (l l' earlier : list (string * string)) :
  first_from earlier (l ++ l')
  = first_from earlier l ++ first_from (earlier ++ l) l'.
Proof.
  revert earlier. induction l as [|p l IH]; intros earlier; simpl.
  - by rewrite app_nil_r.
  - rewrite !first_from_cons, IH, <- !app_assoc. reflexivity.
Qed.

Lemma dom_dict_of_zip (cols : list string) (r : list value) :
  length r = length cols ->
  dom (dict_of (zip cols r)) = (list_to_set cols : gset string).
Proof.
  unfold dict_of. intros Hlen.
  enough (forall m : gmap string value,
             dom (foldl (fun m kv => <[kv.1 := kv.2]> m) m (zip cols r))
             = dom m ∪ list_to_set cols) as ->
    by (rewrite dom_empty_L; apply (left_id_L ∅ (∪))).
  revert r Hlen. induction cols as [|c cols IH]; intros [|v r] Hlen m;
    try discriminate; simpl.
  - by rewrite (right_id_L ∅ (∪)).
  - rewrite IH by (by injection Hlen). rewrite dom_insert_L. simpl.
    rewrite (assoc_L (∪)). f_equal. apply (comm_L (∪)).
Qed.



Lemma load_outcome (s : state) : outcome s (load' s).
Proof.
  unfold load, exists_, read_csv, mbind, M_bind, lift, setitem.
  destruct (files s !! csv) as [[content|]|] eqn:Hnode; simpl.
  - rewrite Hnode.
    destruct (parse_csv content) as [df|e] eqn:Hparse.
    + destruct (for_each loop_body (iterrows (round 1 df)) loop_start)
        as [vars|e] eqn:Hloop.
      * eapply Loaded; eauto.
      * apply Failed. eapply Transforming; eauto.
    + apply Failed. eapply Parsing; eauto.
  - rewrite Hnode. apply Failed. by apply Reading.
  - apply Missing. assumption.
Qed.

Lemma call_rendered (request : Request) (fs : gmap path node) :
  exists ctx,
    call' request fs
    = (Ok (render request "index.html" ctx), {| files := fs; context := ctx |})
    /\ rendered fs ctx.
Proof.
  unfold call, home, try_except, assign_context, get_context, mbind, M_bind,
    mret, M_ret; simpl.
  fold titled. fold (entry fs).
  pose proof (load_outcome (entry fs)) as Hout.
  destruct (load' (entry fs)) as [r s'] eqn:Hload.
  inversion Hout as [Hnone | content df vars Hnode Hparse Hloop | e Hraises];
    subst; simpl in *.
  - eexists; split; [reflexivity | by apply RMissing].
  - eexists; split; [reflexivity | by eapply RLoaded].
  - eexists; split; [reflexivity | by apply RFailed].
Qed.

(** A context is rendered from what is at the path of the file only. *)
Lemma rendered_functional (fs1 fs2 : gmap path node) (c1 c2 : gmap string pyobj) :
  fs1 !! csv = fs2 !! csv -> rendered fs1 c1 -> rendered fs2 c2 -> c1 = c2.
Proof.
  intros Heq H1 H2.
  destruct H1 as [Hn1 | ct1 df1 v1 Hf1 Hp1 Hl1 | e1 Hr1];
    destruct H2 as [Hn2 | ct2 df2 v2 Hf2 Hp2 Hl2 | e2 Hr2];
    try (destruct Hr1); try (destruct Hr2); congruence.
Qed.

Lemma context_of_rendered (request : Request) (fs : gmap path node) :
  rendered fs (context_of request fs).
Proof.
  destruct (call_rendered request fs) as (ctx & Hcall & Hctx).
  unfold home_context. by rewrite Hcall.
Qed.

(** What a call hands to [render] after a successful load. *)
Lemma loaded_context (request : Request) (fs : gmap path node)
    (content : string) (df : DataFrame) (vars : loop_vars) :
  fs !! csv = Some (File content) ->
  parse_csv content = Ok df ->
  for_each loop_body (iterrows (round 1 df)) loop_start = Ok vars ->
  context_of request fs
  = <["games" := PyList (unique_matchups vars)]>
      (<["projections" := PyRecords (to_dict_records (round 1 df))]> titled).
Proof.
  intros Hnode Hparse Hloop.
  eapply rendered_functional;
    [reflexivity | apply context_of_rendered | by eapply RLoaded].
Qed.

(** ** The claims about the three outcomes *)

(** C5. When no file is at the path [home] computes, the context carries
    under [error] the fixed message asking for the R script to be run, and
    has neither a [projections] nor a [games] key. *)
Theorem missing_file_reports_not_found (request : Request) (fs : gmap path node) :
  fs !! csv = None ->
  context_of request fs !! "error"
  = Some (PyStr "File not found. Please run the R script.")
  /\ context_of request fs !! "projections" = None
  /\ context_of request fs !! "games" = None.
Proof.
  intros Hnone.
  destruct (context_of_rendered request fs) as [_ | ? ? ? Hnode | e Hraises].
  - done.
  - congruence.
  - destruct Hraises; congruence.
Qed.

(** C6. When the file is there but reading, parsing or transforming it
    raises an error [e], the call still returns normally (it returns what
    [render] makes of the context), the context carries under [error] a
    message that embeds [str(e)], and it has neither a [projections] nor a
    [games] key. *)
Theorem processing_error_is_caught (request : Request) (fs : gmap path node) (e : exn) :
  raises fs e ->
  (call' request fs).1
  = Ok (render request "index.html" (context_of request fs))
  /\ context_of request fs !! "error"
     = Some (PyStr ("Error loading data: " +:+ exn_str e))
  /\ context_of request fs !! "projections" = None
  /\ context_of request fs !! "games" = None.
Proof.
  intros Hraises.
  destruct (call_rendered request fs) as (ctx & Hcall & Hctx).
  assert (ctx = <["error" := loading_failed e]> titled) as ->.
  { eapply rendered_functional; [reflexivity | exact Hctx | by apply RFailed]. }
  unfold home_context. rewrite Hcall. simpl. done.
Qed.

(** C7. The context depends on what the file system holds at the path of
    the CSV file and on nothing else: two calls with any two requests, on
    file systems that agree at that path, build the same context. *)
Theorem context_ignores_request (request1 request2 : Request) (fs1 fs2 : gmap path node) :
  fs1 !! csv = fs2 !! csv ->
  context_of request1 fs1 = context_of request2 fs2.
Proof.
  intros Heq.
  eapply rendered_functional; [exact Heq | apply context_of_rendered ..].
Qed.

(** C8. A call leaves the file system as it found it. *)
Theorem call_preserves_files (request : Request) (fs : gmap path node) :
  files (call' request fs).2 = fs.
Proof.
  destruct (call_rendered request fs) as (ctx & Hcall & _).
  by rewrite Hcall.
Qed.

(** C9. However the call ends, the context holds the title and the year. *)
Theorem title_and_year_always (request : Request) (fs : gmap path node) :
  context_of request fs !! "title" = Some (PyStr "NBA AI Projections")
  /\ context_of request fs !! "year" = Some (PyInt 2026).
Proof.
  destruct (context_of_rendered request fs); done.
Qed.

(** C10. A file that parses to a frame without rows is a success: the
    call returns normally, [projections] and [games] are empty lists and
    there is no [error] key. *)
Theorem header_only_file_succeeds
    (request : Request) (fs : gmap path node) (content : string) (df : DataFrame) :
  fs !! csv = Some (File content) ->
  parse_csv content = Ok df ->
  rows df = [] ->
  (call' request fs).1
  = Ok (render request "index.html" (context_of request fs))
  /\ context_of request fs !! "projections" = Some (PyRecords [])
  /\ context_of request fs !! "games" = Some (PyList [])
  /\ context_of request fs !! "error" = None.
Proof.
  intros Hnode Hparse Hrows.
  destruct (call_rendered request fs) as (ctx & Hcall & Hctx).
  assert (for_each loop_body (iterrows (round 1 df)) loop_start = Ok loop_start)
    as Hloop by (unfold iterrows, round; simpl; by rewrite Hrows).
  pose proof (RLoaded parse_csv float_str module_file fs content df loop_start
                Hnode Hparse Hloop) as Hloaded.
  rewrite (rendered_functional fs fs _ _ eq_refl Hctx Hloaded) in Hcall.
  unfold home_context. rewrite Hcall. simpl.
  unfold to_dict_records, round; simpl. rewrite Hrows. done.
Qed.

(** ** The claims about a loaded file *)

(** C1.  Scenario A: on the two rows (LAL, BOS, 24.333) and
    (BOS, LAL, 10.667), [projections] has exactly two rows, with 24.3 and
    10.7 for the number, and [games] is the one entry "LAL vs BOS", as the
    first row has it. *)
Theorem scenario_A_context
    (request : Request) (fs : gmap path node) (content col : string) :
  col <> "team_abbreviation" ->
  col <> "opponent" ->
  fs !! csv = Some (File content) ->
  parse_csv content = Ok (scenario_A col) ->
  context_of request fs !! "projections"
  = Some (PyRecords
            [ {[ "team_abbreviation" := VStr "LAL"; "opponent" := VStr "BOS";
                 col := VFloat 24.3 ]};
              {[ "team_abbreviation" := VStr "BOS"; "opponent" := VStr "LAL";
                 col := VFloat 10.7 ]} ])
  /\ context_of request fs !! "games" = Some (PyList ["LAL vs BOS"]).
Proof.
  intros Hteam Hopponent Hnode Hparse.
  assert (for_each loop_body (iterrows (round 1 (scenario_A col))) loop_start
          = Ok {| seen_matchups := [(VStr "BOS", VStr "LAL")];
                  unique_matchups := ["LAL vs BOS"] |}) as Hloop
    by (vm_compute; reflexivity).
  rewrite (loaded_context request fs content _ _ Hnode Hparse Hloop).
  split; [|done].
  rewrite lookup_insert_ne, lookup_insert_eq by done.
  do 2 f_equal. unfold to_dict_records, dict_of. simpl.
  change (np_round 1 24.333) with 24.3%float.
  change (np_round 1 10.667) with 10.7%float.
  rewrite <- !insert_empty.
  rewrite !(insert_insert_ne _ col "opponent") by done.
  rewrite !(insert_insert_ne _ col "team_abbreviation") by done.
  rewrite !(insert_insert_ne _ "opponent" "team_abbreviation") by done.
  reflexivity.
Qed.


(** C3, as amended.  When the file is there, parses, and every row has a
    string team and a string opponent, [games] has as many entries as the
    rows have distinct unordered pairs of codes; the entries come from rows
    of the file, no two of them from rows with the same unordered pair. *)
Theorem games_one_per_unordered_pair
    (request : Request) (fs : gmap path node) (content : string) (df : DataFrame) :
  fs !! csv = Some (File content) ->
  parse_csv content = Ok df ->
  string_codes df = true ->
  exists (games : list string) (kept : list (string * string)),
    context_of request fs !! "games" = Some (PyList games)
    /\ length games
       = size (list_to_set (unordered <$> team_pairs df) : gset (gset string))
    /\ games = display <$> kept
    /\ kept `sublist_of` team_pairs df
    /\ NoDup (unordered <$> kept).
Proof.
  intros Hnode Hparse Hcodes.
  destruct (for_each_string_codes df Hcodes) as (vars & Hloop & Hunique).
  rewrite (loaded_context request fs content df vars Hnode Hparse Hloop).
  exists (unique_matchups vars), (first_occurrences (team_pairs df)).
  split; [done|]. rewrite Hunique, length_fmap.
  split; [apply length_first_occurrences|]. split; [reflexivity|].
  rewrite first_occurrences_first_from.
  split; [apply first_from_sublist | apply NoDup_first_from].
Qed.

(** C4, as amended.  When the file is there, parses, and every row has a
    string team and a string opponent, [games] lists, in file order, the
    rows whose unordered pair of codes no earlier row has, each as
    "team_abbreviation vs opponent" with the two codes in the order that row
    has them. *)
Theorem games_in_first_occurrence_order
    (request : Request) (fs : gmap path node) (content : string) (df : DataFrame) :
  fs !! csv = Some (File content) ->
  parse_csv content = Ok df ->
  string_codes df = true ->
  context_of request fs !! "games"
  = Some (PyList (display <$> first_occurrences (team_pairs df))).
Proof.
  intros Hnode Hparse Hcodes.
  destruct (for_each_string_codes df Hcodes) as (vars & Hloop & Hunique).
  rewrite (loaded_context request fs content df vars Hnode Hparse Hloop).
  by rewrite <- Hunique.
Qed.

(** * Further properties of the view *)

Lemma failed_context (request : Request) (fs : gmap path node) (e : exn) :
  raises fs e ->
  context_of request fs = <["error" := loading_failed e]> titled.
Proof.
  intros Hraises.
  eapply rendered_functional;
    [reflexivity | apply context_of_rendered | by apply RFailed].
Qed.

(** X1.  The context has the title, the year and either [error] alone or
    [projections] and [games] together: never an error beside data, never
    one of the two lists without the other. *)
Theorem context_has_error_or_data (request : Request) (fs : gmap path node) :
  dom (context_of request fs) = ({[ "title"; "year"; "error" ]} : gset string)
  \/ dom (context_of request fs)
     = ({[ "title"; "year"; "projections"; "games" ]} : gset string).
Proof.
  destruct (context_of_rendered request fs); unfold titled;
    rewrite !dom_insert_L, dom_singleton_L; [left | right | left]; set_solver.
Qed.

(** X2.  Whatever is on the file system, the view raises nothing: it
    returns what [render] makes of the request, the template "index.html"
    and the context. *)
Theorem home_always_renders (request : Request) (fs : gmap path node) :
  (call' request fs).1
  = Ok (render request "index.html" (context_of request fs)).
Proof.
  destruct (call_rendered request fs) as (ctx & Hcall & _).
  unfold home_context. by rewrite Hcall.
Qed.

(** X3.  The page shows data exactly when the file is there, parses, and
    every row has a team and an opponent that can be ordered: one row
    without them, wherever it is, and nothing of the file is shown. *)
Theorem data_iff_every_row_orderable (request : Request) (fs : gmap path node) :
  is_Some (context_of request fs !! "projections")
  <-> exists content df,
        fs !! csv = Some (File content)
        /\ parse_csv content = Ok df
        /\ forallb (orderable df) (rows df) = true.
Proof.
  split.
  - destruct (context_of_rendered request fs)
      as [Hnone | content df vars Hnode Hparse Hloop | e Hraises].
    + intros [x Hx]. done.
    + intros _. exists content, df. repeat split; try done.
      by eapply for_each_Ok_inv.
    + intros [x Hx]. done.
  - intros (content & df & Hnode & Hparse & Hrows).
    destruct (for_each_orderable df loop_start Hrows) as [vars Hloop].
    rewrite (loaded_context request fs content df vars Hnode Hparse Hloop).
    by eexists.
Qed.

(** X4.  A file with at least one data row and no [team_abbreviation]
    column is reported as "Error loading data: 'team_abbreviation'",
    whether or not it has an [opponent] column. *)
Theorem no_team_column_reported
    (request : Request) (fs : gmap path node) (content : string) (df : DataFrame) :
  fs !! csv = Some (File content) ->
  parse_csv content = Ok df ->
  rows df <> [] ->
  "team_abbreviation" ∉ columns df ->
  context_of request fs !! "error"
  = Some (PyStr "Error loading data: 'team_abbreviation'")
  /\ context_of request fs !! "projections" = None
  /\ context_of request fs !! "games" = None.
Proof.
  intros Hnode Hparse Hrows Hteam.
  destruct (rows df) as [|r l] eqn:Hr; [done|].
  rewrite (failed_context request fs (KeyError "team_abbreviation")); [done|].
  eapply Transforming; [exact Hnode | exact Hparse |].
  eapply for_each_first_row_missing; [exact Hr | by left |].
  by apply getitem_missing.
Qed.

(** X5.  A file with at least one data row, a [team_abbreviation] column
    and no [opponent] column is reported as
    "Error loading data: 'opponent'". *)
Theorem no_opponent_column_reported
    (request : Request) (fs : gmap path node) (content : string) (df : DataFrame) :
  fs !! csv = Some (File content) ->
  parse_csv content = Ok df ->
  rows df <> [] ->
  rectangular df ->
  "team_abbreviation" ∈ columns df ->
  "opponent" ∉ columns df ->
  context_of request fs !! "error" = Some (PyStr "Error loading data: 'opponent'")
  /\ context_of request fs !! "projections" = None
  /\ context_of request fs !! "games" = None.
Proof.
  intros Hnode Hparse Hrows Hrect Hteam Hopponent.
  unfold rectangular in Hrect.
  destruct (rows df) as [|r l] eqn:Hr; [done|].
  apply Forall_cons in Hrect as [Hlen _].
  rewrite (failed_context request fs (KeyError "opponent")); [done|].
  eapply Transforming; [exact Hnode | exact Hparse |].
  eapply for_each_first_row_missing; [exact Hr | right | by apply getitem_missing].
  split; [reflexivity|]. by apply getitem_present.
Qed.

(** X6.  With string codes in every row, every row can be picked in the
    dropdown: for a row of team [a] against [b], [games] has the entry
    "a vs b" or the entry "b vs a". *)
Theorem every_row_has_an_entry
    (request : Request) (fs : gmap path node) (content : string) (df : DataFrame) :
  fs !! csv = Some (File content) ->
  parse_csv content = Ok df ->
  string_codes df = true ->
  exists games,
    context_of request fs !! "games" = Some (PyList games)
    /\ forall a b, (a, b) ∈ team_pairs df ->
                   display (a, b) ∈ games \/ display (b, a) ∈ games.
Proof.
  intros Hnode Hparse Hcodes.
  destruct (for_each_string_codes df Hcodes) as (vars & Hloop & Hunique).
  rewrite (loaded_context request fs content df vars Hnode Hparse Hloop).
  exists (unique_matchups vars). split; [done|]. intros a b Hab.
  assert (unordered (a, b) ∈ unordered <$> first_occurrences (team_pairs df))
    as (q & Hq & Hin)%list_elem_of_fmap.
  { rewrite first_occurrences_first_from, elem_of_first_from. split.
    - by apply list_elem_of_fmap_2.
    - simpl. apply not_elem_of_nil. }
  rewrite Hunique.
  apply unordered_eq in Hq as [[Ha Hb] | [Ha Hb]]; destruct q as [c d];
    simpl in *; subst; [left | right]; by apply list_elem_of_fmap_2.
Qed.

(** X7.  Appending rows to a file with string codes leaves the entries
    it had where they were: when the rows of the longer file start with
    the team and opponent codes of the shorter one (whatever became of the
    other columns), the [games] of the shorter file is a prefix of the
    [games] of the longer one. *)
Theorem appended_rows_extend_games
    (request : Request) (fs fs' : gmap path node) (content content' : string)
    (df df' : DataFrame) (more : list (string * string)) :
  fs !! csv = Some (File content) ->
  parse_csv content = Ok df ->
  fs' !! csv = Some (File content') ->
  parse_csv content' = Ok df' ->
  string_codes df = true ->
  string_codes df' = true ->
  team_pairs df' = team_pairs df ++ more ->
  exists games games',
    context_of request fs !! "games" = Some (PyList games)
    /\ context_of request fs' !! "games" = Some (PyList games')
    /\ games `prefix_of` games'.
Proof.
  intros Hnode Hparse Hnode' Hparse' Hcodes Hcodes' Hpairs.
  destruct (for_each_string_codes df Hcodes) as (vars & Hloop & Hunique).
  destruct (for_each_string_codes df' Hcodes') as (vars' & Hloop' & Hunique').
  rewrite (loaded_context request fs content df vars Hnode Hparse Hloop).
  rewrite (loaded_context request fs' content' df' vars' Hnode' Hparse' Hloop').
  exists (unique_matchups vars), (unique_matchups vars').
  split; [done|]. split; [done|].
  rewrite Hunique, Hunique', Hpairs.
  rewrite first_occurrences_first_from, (first_occurrences_first_from (_ ++ _)).
  rewrite first_from_app, fmap_app.
  by apply prefix_app_r.
Qed.

(** X9.  A directory at the path of the file counts as present: the page
    reports a loading error that embeds the message of the failed read, not
    the "file not found" message. *)
Theorem directory_is_a_loading_error (request : Request) (fs : gmap path node) :
  fs !! csv = Some Directory ->
  (exists msg, context_of request fs !! "error"
               = Some (PyStr ("Error loading data: " +:+ msg)))
  /\ context_of request fs !! "error"
     <> Some (PyStr "File not found. Please run the R script.")
  /\ context_of request fs !! "projections" = None
  /\ context_of request fs !! "games" = None.
Proof.
  intros Hdir.
  rewrite (failed_context request fs _ (Reading parse_csv float_str module_file fs Hdir)).
  repeat split; try done. by eexists.
Qed.

(** X10.  When every row has one cell for each column, every mapping of
    [projections] has exactly the column names as its keys. *)
Theorem records_have_the_columns
    (request : Request) (fs : gmap path node) (content : string) (df : DataFrame) :
  fs !! csv = Some (File content) ->
  parse_csv content = Ok df ->
  forallb (orderable df) (rows df) = true ->
  rectangular df ->
  exists records,
    context_of request fs !! "projections" = Some (PyRecords records)
    /\ length records = length (rows df)
    /\ Forall (fun record : gmap string value =>
                 dom record = (list_to_set (columns df) : gset string)) records.
Proof.
  intros Hnode Hparse Hrows Hrect.
  destruct (for_each_orderable df loop_start Hrows) as [vars Hloop].
  rewrite (loaded_context request fs content df vars Hnode Hparse Hloop).
  eexists. split; [done|]. unfold to_dict_records. simpl.
  rewrite !length_fmap. split; [reflexivity|].
  rewrite <- list_fmap_compose. apply Forall_fmap.
  eapply Forall_impl; [exact Hrect|]. intros r Hlen. simpl.
  apply dom_dict_of_zip. by rewrite length_fmap.
Qed.

(** X11.  With string codes in every row, [games] has at most one entry
    for each row, and starts with the first row's own
    "team_abbreviation vs opponent". *)
Theorem games_bounded_and_led_by_first_row
    (request : Request) (fs : gmap path node) (content : string) (df : DataFrame) :
  fs !! csv = Some (File content) ->
  parse_csv content = Ok df ->
  string_codes df = true ->
  exists games,
    context_of request fs !! "games" = Some (PyList games)
    /\ (length games <= length (rows df))%nat
    /\ forall p, head (team_pairs df) = Some p -> head games = Some (display p).
Proof.
  intros Hnode Hparse Hcodes.
  destruct (for_each_string_codes df Hcodes) as (vars & Hloop & Hunique).
  rewrite (loaded_context request fs content df vars Hnode Hparse Hloop).
  exists (unique_matchups vars). split; [done|]. rewrite Hunique. split.
  - rewrite length_fmap, first_occurrences_first_from.
    etrans; [apply sublist_length, first_from_sublist|].
    by rewrite <- (Forall2_length _ _ _ (team_pairs_all_rows df Hcodes)).
  - intros p Hp. destruct (team_pairs df) as [|p' l]; [discriminate|].
    injection Hp as ->.
    rewrite first_occurrences_first_from, first_from_cons.
    rewrite bool_decide_eq_false_2 by apply not_elem_of_nil. reflexivity.
Qed.

(** X14.  A file whose first data row has a string team and a number for
    the opponent is reported with the [TypeError] of [sorted], which names
    the type of the number ([int] or [float]) first and [str] second. *)
Theorem numbered_opponent_reported
    (request : Request) (fs : gmap path node) (content : string) (df : DataFrame)
    (r : list value) (l : list (list value)) (team : string) (number : value) :
  fs !! csv = Some (File content) ->
  parse_csv content = Ok df ->
  rows df = r :: l ->
  field df r "team_abbreviation" = Ok (VStr team) ->
  field df r "opponent" = Ok number ->
  is_str number = false ->
  context_of request fs !! "error"
  = Some (PyStr ("Error loading data: '<' not supported between instances of '"
                 +:+ type_name number +:+ "' and 'str'"))
  /\ context_of request fs !! "projections" = None
  /\ context_of request fs !! "games" = None.
Proof.
  intros Hnode Hparse Hrows Hteam Hopponent Hnumber.
  rewrite (failed_context request fs
             (TypeError ("'<' not supported between instances of '"
                         +:+ type_name number +:+ "' and 'str'"))); [done|].
  eapply Transforming; [exact Hnode | exact Hparse |].
  rewrite iterrows_round, Hrows. simpl.
  rewrite (values_dtype_object df r team).
  - unfold loop_body, sorted2, field in *.
    rewrite !getitem_zip_fmap, Hteam, Hopponent. simpl.
    by destruct number.
  - rewrite Hrows. apply elem_of_cons. by left.
  - by eapply getitem_elem_of.
Qed.

End Claims.

(** * The claims at concrete inputs *)

Lemma scenario_A_context_witness :
  context_on (scenario_A "pts") (disk csv_A) !! "projections"
  = Some (PyRecords
            [ {[ "team_abbreviation" := VStr "LAL"; "opponent" := VStr "BOS";
                 "pts" := VFloat 24.3 ]};
              {[ "team_abbreviation" := VStr "BOS"; "opponent" := VStr "LAL";
                 "pts" := VFloat 10.7 ]} ])
  /\ context_on (scenario_A "pts") (disk csv_A) !! "games"
     = Some (PyList ["LAL vs BOS"]).
Proof.
  apply (scenario_A_context bool _ show (parses_to (scenario_A "pts")) float_str_small views_py
           true (disk csv_A) csv_A "pts").
  - discriminate.
  - discriminate.
  - vm_compute; reflexivity.
  - reflexivity.
Defined.


Lemma games_one_per_unordered_pair_witness :
  exists (games : list string) (kept : list (string * string)),
    context_on (scenario_A "pts") (disk csv_A) !! "games" = Some (PyList games)
    /\ length games
       = size (list_to_set (unordered <$> team_pairs (scenario_A "pts"))
               : gset (gset string))
    /\ games = display <$> kept
    /\ kept `sublist_of` team_pairs (scenario_A "pts")
    /\ NoDup (unordered <$> kept).
Proof.
  apply (games_one_per_unordered_pair bool _ show (parses_to (scenario_A "pts"))
           float_str_small views_py true (disk csv_A) csv_A (scenario_A "pts")).
  - vm_compute; reflexivity.
  - reflexivity.
  - vm_compute; reflexivity.
Defined.

Lemma games_in_first_occurrence_order_witness :
  context_on (scenario_A "pts") (disk csv_A) !! "games"
  = Some (PyList (display <$> first_occurrences (team_pairs (scenario_A "pts")))).
Proof.
  apply (games_in_first_occurrence_order bool _ show
           (parses_to (scenario_A "pts")) float_str_small views_py true (disk csv_A) csv_A
           (scenario_A "pts")).
  - vm_compute; reflexivity.
  - reflexivity.
  - vm_compute; reflexivity.
Defined.

Lemma missing_file_reports_not_found_witness :
  context_on header_only ∅ !! "error"
  = Some (PyStr "File not found. Please run the R script.")
  /\ context_on header_only ∅ !! "projections" = None
  /\ context_on header_only ∅ !! "games" = None.
Proof.
  apply (missing_file_reports_not_found bool _ show (parses_to header_only)
           float_str_small views_py true ∅).
  reflexivity.
Defined.

Lemma processing_error_is_caught_witness :
  (call bool _ show (parses_to no_opponent) float_str_small views_py true (disk csv_no_opponent)).1
  = Ok (show true "index.html" (context_on no_opponent (disk csv_no_opponent)))
  /\ context_on no_opponent (disk csv_no_opponent) !! "error"
     = Some (PyStr ("Error loading data: " +:+ exn_str (KeyError "opponent")))
  /\ context_on no_opponent (disk csv_no_opponent) !! "projections" = None
  /\ context_on no_opponent (disk csv_no_opponent) !! "games" = None.
Proof.
  apply (processing_error_is_caught bool _ show (parses_to no_opponent) float_str_small views_py
           true (disk csv_no_opponent) (KeyError "opponent")).
  apply (Transforming (parses_to no_opponent) float_str_small views_py (disk csv_no_opponent)
           csv_no_opponent no_opponent).
  - vm_compute; reflexivity.
  - reflexivity.
  - vm_compute; reflexivity.
Defined.

Lemma context_ignores_request_witness :
  home_context bool _ show (parses_to (scenario_A "pts")) float_str_small views_py true
    (disk csv_A)
  = home_context bool _ show (parses_to (scenario_A "pts")) float_str_small views_py false
      (<[ ["srv"; "NBAWeb"; "db.sqlite3"] := File "" ]> (disk csv_A)).
Proof.
  apply (context_ignores_request bool _ show (parses_to (scenario_A "pts"))
           float_str_small views_py true false).
  vm_compute; reflexivity.
Defined.

Lemma header_only_file_succeeds_witness :
  (call bool _ show (parses_to header_only) float_str_small views_py true (disk csv_header_only)).1
  = Ok (show true "index.html" (context_on header_only (disk csv_header_only)))
  /\ context_on header_only (disk csv_header_only) !! "projections"
     = Some (PyRecords [])
  /\ context_on header_only (disk csv_header_only) !! "games" = Some (PyList [])
  /\ context_on header_only (disk csv_header_only) !! "error" = None.
Proof.
  apply (header_only_file_succeeds bool _ show (parses_to header_only) float_str_small views_py
           true (disk csv_header_only) csv_header_only header_only).
  - vm_compute; reflexivity.
  - reflexivity.
  - reflexivity.
Defined.

(** ** Files that parse and are not loaded *)


(** C3, as stated, fails on a file whose opponent is a number: the file is
    there and parses to one row, with the one pair of LAL and 7, and the
    context has no [games] key; it carries the [TypeError] of [sorted] under
    [error]. *)
Lemma no_games_for_numbered_opponent :
  disk csv_numbered_opponent !! csv_path views_py
  = Some (File csv_numbered_opponent)
  /\ parses_to numbered_opponent csv_numbered_opponent = Ok numbered_opponent
  /\ rows numbered_opponent = [ [VStr "LAL"; VInt 7] ]
  /\ context_on numbered_opponent (disk csv_numbered_opponent) !! "games" = None
  /\ context_on numbered_opponent (disk csv_numbered_opponent) !! "error"
     = Some (PyStr "Error loading data: '<' not supported between instances of 'int' and 'str'").
Proof. repeat split; vm_compute; reflexivity. Qed.

(** C4, as stated, fails on a file whose team is a number: the file is
    there and parses to one row, the first of its pair, and the context has
    no [games] key, so no entry for that row. *)
Lemma no_entry_for_numbered_team :
  disk csv_numbered_team !! csv_path views_py = Some (File csv_numbered_team)
  /\ parses_to numbered_team csv_numbered_team = Ok numbered_team
  /\ rows numbered_team = [ [VInt 7; VStr "BOS"] ]
  /\ context_on numbered_team (disk csv_numbered_team) !! "games" = None
  /\ context_on numbered_team (disk csv_numbered_team) !! "error"
     = Some (PyStr "Error loading data: '<' not supported between instances of 'str' and 'int'").
Proof. repeat split; vm_compute; reflexivity. Qed.

(** ** The further properties at concrete inputs *)

Lemma no_team_column_reported_witness :
  context_on no_team (disk csv_no_team) !! "error"
  = Some (PyStr "Error loading data: 'team_abbreviation'")
  /\ context_on no_team (disk csv_no_team) !! "projections" = None
  /\ context_on no_team (disk csv_no_team) !! "games" = None.
Proof.
  apply (no_team_column_reported bool _ show (parses_to no_team) float_str_small views_py true
           (disk csv_no_team) csv_no_team no_team).
  - vm_compute; reflexivity.
  - reflexivity.
  - discriminate.
  - intros Hin. by repeat (apply elem_of_cons in Hin as [Hin | Hin];
                           [discriminate|]); apply elem_of_nil in Hin.
Defined.

Lemma no_opponent_column_reported_witness :
  context_on no_opponent (disk csv_no_opponent) !! "error"
  = Some (PyStr "Error loading data: 'opponent'")
  /\ context_on no_opponent (disk csv_no_opponent) !! "projections" = None
  /\ context_on no_opponent (disk csv_no_opponent) !! "games" = None.
Proof.
  apply (no_opponent_column_reported bool _ show (parses_to no_opponent) float_str_small views_py
           true (disk csv_no_opponent) csv_no_opponent no_opponent).
  - vm_compute; reflexivity.
  - reflexivity.
  - discriminate.
  - repeat constructor.
  - apply elem_of_cons. by left.
  - intros Hin. by repeat (apply elem_of_cons in Hin as [Hin | Hin];
                           [discriminate|]); apply elem_of_nil in Hin.
Defined.

Lemma every_row_has_an_entry_witness :
  exists games,
    context_on (scenario_A "pts") (disk csv_A) !! "games" = Some (PyList games)
    /\ forall a b, (a, b) ∈ team_pairs (scenario_A "pts") ->
                   display (a, b) ∈ games \/ display (b, a) ∈ games.
Proof.
  apply (every_row_has_an_entry bool _ show (parses_to (scenario_A "pts"))
           float_str_small views_py true (disk csv_A) csv_A (scenario_A "pts")).
  - vm_compute; reflexivity.
  - reflexivity.
  - vm_compute; reflexivity.
Defined.

Lemma appended_rows_extend_games_witness :
  exists games games',
    home_context bool _ show parses_A float_str_small views_py true
      (disk csv_A_start) !! "games"
    = Some (PyList games)
    /\ home_context bool _ show parses_A float_str_small views_py true
         (disk csv_A) !! "games"
       = Some (PyList games')
    /\ games `prefix_of` games'.
Proof.
  apply (appended_rows_extend_games bool _ show parses_A float_str_small
           views_py true (disk csv_A_start) (disk csv_A) csv_A_start csv_A
           scenario_A_start (scenario_A "pts") [ ("BOS", "LAL") ]).
  - vm_compute; reflexivity.
  - vm_compute; reflexivity.
  - vm_compute; reflexivity.
  - vm_compute; reflexivity.
  - vm_compute; reflexivity.
  - vm_compute; reflexivity.
  - vm_compute; reflexivity.
Defined.

Lemma directory_is_a_loading_error_witness :
  (exists msg, context_on header_only disk_with_directory !! "error"
               = Some (PyStr ("Error loading data: " +:+ msg)))
  /\ context_on header_only disk_with_directory !! "error"
     <> Some (PyStr "File not found. Please run the R script.")
  /\ context_on header_only disk_with_directory !! "projections" = None
  /\ context_on header_only disk_with_directory !! "games" = None.
Proof.
  apply (directory_is_a_loading_error bool _ show (parses_to header_only)
           float_str_small views_py true disk_with_directory).
  vm_compute; reflexivity.
Defined.

Lemma records_have_the_columns_witness :
  exists records,
    context_on (scenario_A "pts") (disk csv_A) !! "projections"
    = Some (PyRecords records)
    /\ length records = length (rows (scenario_A "pts"))
    /\ Forall (fun record : gmap string value =>
                 dom record
                 = (list_to_set (columns (scenario_A "pts")) : gset string))
         records.
Proof.
  apply (records_have_the_columns bool _ show (parses_to (scenario_A "pts"))
           float_str_small views_py true (disk csv_A) csv_A (scenario_A "pts")).
  - vm_compute; reflexivity.
  - reflexivity.
  - vm_compute; reflexivity.
  - repeat constructor.
Defined.

Lemma games_bounded_and_led_by_first_row_witness :
  exists games,
    context_on (scenario_A "pts") (disk csv_A) !! "games" = Some (PyList games)
    /\ (length games <= length (rows (scenario_A "pts")))%nat
    /\ forall p, head (team_pairs (scenario_A "pts")) = Some p ->
                 head games = Some (display p).
Proof.
  apply (games_bounded_and_led_by_first_row bool _ show
           (parses_to (scenario_A "pts")) float_str_small views_py true (disk csv_A) csv_A
           (scenario_A "pts")).
  - vm_compute; reflexivity.
  - reflexivity.
  - vm_compute; reflexivity.
Defined.

Lemma numbered_opponent_reported_witness :
  context_on numbered_opponent (disk csv_numbered_opponent) !! "error"
  = Some (PyStr ("Error loading data: '<' not supported between instances of '"
                 +:+ type_name (VInt 7) +:+ "' and 'str'"))
  /\ context_on numbered_opponent (disk csv_numbered_opponent) !! "projections"
     = None
  /\ context_on numbered_opponent (disk csv_numbered_opponent) !! "games" = None.
Proof.
  apply (numbered_opponent_reported bool _ show (parses_to numbered_opponent)
           float_str_small views_py true (disk csv_numbered_opponent) csv_numbered_opponent
           numbered_opponent [VStr "LAL"; VInt 7] [] "LAL" (VInt 7)).
  - vm_compute; reflexivity.
  - reflexivity.
  - reflexivity.
  - reflexivity.
  - reflexivity.
  - reflexivity.
Defined.
